(** * Old Mirchi investment tracker: the ledger of streamlit_investment_tracker.py

    The script keeps the ledger in [st.session_state]: a list of
    transaction dicts, the next serial to hand out and a one-shot message.
    Every handler of the script is embedded as a function on that state.

    Modelling decisions, each stated where it is used:
    - amounts are Python floats (or JSON numbers); they are embedded in [Q],
      where comparisons are exact. Float sums are not rational sums: what
      pandas adds up is a parameter of the frames ([float_sum]);
    - pandas sorts with an unstable sort: the order it leaves among equal
      keys is not fixed by the script, and the sorts are parameters of the
      frames, bound only by what every sort guarantees;
    - dates are the ['%Y-%m-%d'] strings the form stores; what pandas makes
      of other texts is not modelled, and the statements about months
      assume stored dates of that form;
    - the handlers are given on well-typed ledgers and snapshots;
      [import_block] gives the import on every value [json.load] can
      return, with a session store that can hold any such value;
    - [json.dumps] followed by [json.load] is the identity on the values
      the export writes;
    - [st.rerun()] ends the handler: the state it leaves is the result. *)

From Stdlib Require Import ZArith QArith List Ascii String Bool Lia.
From Stdlib Require Import Permutation Sorted RelationClasses.
From Stdlib Require Import DecimalString OrderedTypeEx.
Import ListNotations.

Open Scope string_scope.
Open Scope Z_scope.

(** ** Data model *)

(** The dict built at lines 223-229. *)
Record Transaction := mkTransaction {
  serial : Z;
  date : string;
  purpose : string;
  amount : Q;
  created_at : string
}.

(** [st.session_state], lines 58-63. [message] is [None] or the pair
    (kind, text). *)
Record SessionState := mkState {
  transactions : list Transaction;
  serial_counter : Z;
  message : option (string * string)
}.

Definition initial_state : SessionState :=
  {| transactions := []; serial_counter := 1; message := None |}.

(** The dict written by the export handler and read back by the import
    handler. A key that is absent from the parsed object is [None]. *)
Record Snapshot := mkSnapshot {
  snap_transactions : option (list Transaction);
  snap_serial_counter : option Z;
  snap_export_date : option string
}.

(** ** Python primitives used by the handlers *)

(** Truth value of a [str]: the empty string is false, every other string,
    blank ones included, is true. *)
Definition str_truthy (s : string) : bool :=
  match s with
  | EmptyString => false
  | String _ _ => true
  end.

(** Truth value of a [list]. *)
Definition list_truthy {A : Type} (l : list A) : bool :=
  match l with
  | [] => false
  | _ :: _ => true
  end.

(** [a > b] on numbers. *)
Definition Qgtb (a b : Q) : bool := negb (Qle_bool a b).

(** [str(n)] / [f"{n}"] for a length. *)
Definition str_of_nat (n : nat) : string :=
  NilZero.string_of_uint (Nat.to_uint n).

(** ** Handlers *)

(** Export button, lines 78-93. [now] is [datetime.now().isoformat()] and
    [today] is [str(date.today())]. *)
Inductive ExportResult :=
| Download (data : Snapshot) (file_name : string)
| ExportWarning (text : string).

Definition export_data (now today : string) (s : SessionState) : ExportResult :=
  if list_truthy (transactions s) then
    Download
      {| snap_transactions := Some (transactions s);
         snap_serial_counter := Some (serial_counter s);
         snap_export_date := Some now |}
      ("old_mirchi_backup_" ++ today ++ ".json")
  else ExportWarning "No data to export".

(** Import block, lines 96-106, on well-typed input. The uploader holds no
    file, a file on which [json.load] raised (with the text of the
    exception), or a parsed object whose 'transactions', when present, is a
    list of transactions. [import_block] below covers every parsed value. *)
Inductive Uploaded :=
| NoFile
| BadJson (err : string)
| Parsed (data : Snapshot).

Inductive ImportResult :=
| ImportRerun (s : SessionState)
| ImportFallThrough (s : SessionState)
| ImportError (s : SessionState) (text : string).

Definition import_data (uploaded_file : Uploaded) (s : SessionState) : ImportResult :=
  match uploaded_file with
  | NoFile => ImportFallThrough s
  | BadJson err => ImportError s ("Error importing data: " ++ err)
  | Parsed data =>
      match snap_transactions data with
      | Some txs =>
          ImportRerun
            {| transactions := txs;
               serial_counter :=
                 match snap_serial_counter data with
                 | Some c => c
                 | None => Z.of_nat (List.length txs) + 1
                 end;
               message :=
                 Some ("success",
                       "Successfully imported " ++ str_of_nat (List.length txs)
                         ++ " transactions!") |}
      | None => ImportFallThrough s
      end
  end.

Definition import_state (r : ImportResult) : SessionState :=
  match r with
  | ImportRerun s => s
  | ImportFallThrough s => s
  | ImportError s _ => s
  end.

(** ** The import block on any parsed value *)

(** A Python float: a rational, or one of the values [json.load] reads
    from [NaN], [Infinity] and [-Infinity]. *)
Inductive PyFloat :=
| Finite (q : Q)
| NaN
| Infinity (negative : bool).

(** What [json.load] returns. [JDict] lists the items of the dict, each
    key once. *)
#[warnings="-register-all"]
Inductive Json :=
| JNull
| JBool (b : bool)
| JInt (n : Z)
| JFloat (x : PyFloat)
| JStr (s : string)
| JList (l : list Json)
| JDict (items : list (string * Json)).

(** [st.session_state] when its entries can hold any parsed value, as
    they can after an import. *)
Record RawSession := mkRaw {
  raw_transactions : Json;
  raw_serial_counter : Json;
  raw_message : option (string * string)
}.

(** [d[key]] and [d.get(key)] on the items of a dict. *)
Fixpoint dict_get (key : string) (items : list (string * Json)) : option Json :=
  match items with
  | [] => None
  | (k, v) :: rest => if (k =? key)%string then Some v else dict_get key rest
  end.

(** [sub in s] on strings. *)
Fixpoint str_contains (sub s : string) : bool :=
  if prefix sub s then true
  else match s with
       | EmptyString => false
       | String _ s' => str_contains sub s'
       end.

(** [x in l] for a string [x]: some element is that string. *)
Definition list_has_str (x : string) (l : list Json) : bool :=
  existsb (fun v => match v with JStr s => (s =? x)%string | _ => false end) l.

(** [len(s)] of a [str]: its code points, that is the bytes of its UTF-8
    text that are not continuation bytes. *)
Fixpoint str_len (s : string) : nat :=
  match s with
  | EmptyString => 0%nat
  | String c s' =>
      let n := Ascii.N_of_ascii c in
      if (128 <=? n)%N && (n <? 192)%N then str_len s' else S (str_len s')
  end.

(** [len(v)]; [None] is the [TypeError] of a value without a length. *)
Definition py_len (v : Json) : option nat :=
  match v with
  | JList l => Some (List.length l)
  | JStr s => Some (str_len s)
  | JDict items => Some (List.length items)
  | _ => None
  end.

(** Where the [try] of lines 98-104 raised. The text that [str(e)] gives
    for a [TypeError] is the interpreter's and is not modelled. *)
Inductive ImportFailure :=
| JsonLoadRaised (err : string)
| MembershipRaised
| SubscriptRaised
| LenRaised.

Inductive RawUpload :=
| RawNoFile
| RawBadJson (err : string)
| RawParsed (data : Json).

Inductive RawImportResult :=
| RawRerun (s : RawSession)
| RawFallThrough (s : RawSession)
| RawError (s : RawSession) (e : ImportFailure).

(** Lines 96-106 on any parsed value. Line 100 tests ['transactions' in
    data]: a key of a dict, an element of a list, a part of a string, a
    [TypeError] on anything else. Line 101 subscripts [data], which raises
    on a list or a string, and assigns the transactions. Line 102 then
    evaluates [len(data['transactions']) + 1] before it calls [data.get]:
    when that value has no length the error is raised with the
    transactions already assigned. *)
Definition import_block (uploaded_file : RawUpload) (s : RawSession)
    : RawImportResult :=
  match uploaded_file with
  | RawNoFile => RawFallThrough s
  | RawBadJson err => RawError s (JsonLoadRaised err)
  | RawParsed (JDict items) =>
      match dict_get "transactions" items with
      | None => RawFallThrough s
      | Some v =>
          match py_len v with
          | None =>
              RawError
                {| raw_transactions := v;
                   raw_serial_counter := raw_serial_counter s;
                   raw_message := raw_message s |}
                LenRaised
          | Some n =>
              RawRerun
                {| raw_transactions := v;
                   raw_serial_counter :=
                     match dict_get "serial_counter" items with
                     | Some c => c
                     | None => JInt (Z.of_nat n + 1)
                     end;
                   raw_message :=
                     Some ("success",
                           "Successfully imported " ++ str_of_nat n
                             ++ " transactions!") |}
          end
      end
  | RawParsed (JList l) =>
      if list_has_str "transactions" l then RawError s SubscriptRaised
      else RawFallThrough s
  | RawParsed (JStr t) =>
      if str_contains "transactions" t then RawError s SubscriptRaised
      else RawFallThrough s
  | RawParsed _ => RawError s MembershipRaised
  end.

(** The well-typed ledgers and snapshots among the parsed values: what
    [json.dumps] writes for them. *)
Definition json_of_transaction (t : Transaction) : Json :=
  JDict [("serial", JInt (serial t)); ("date", JStr (date t));
         ("purpose", JStr (purpose t)); ("amount", JFloat (Finite (amount t)));
         ("created_at", JStr (created_at t))].


Definition raw_of_state (s : SessionState) : RawSession :=
  {| raw_transactions := JList (map json_of_transaction (transactions s));
     raw_serial_counter := JInt (serial_counter s);
     raw_message := message s |}.



(** Body of the confirmed clear, lines 111-114. *)
Definition clear_data (s : SessionState) : SessionState :=
  {| transactions := []; serial_counter := 1;
     message := Some ("success", "All data cleared successfully") |}.

(** Message display, lines 117-123: the message is shown once and reset. *)
Definition display_message (s : SessionState) : SessionState :=
  match message s with
  | Some _ => {| transactions := transactions s;
                 serial_counter := serial_counter s;
                 message := None |}
  | None => s
  end.

(** Form submission, lines 221-237. *)
Definition new_transaction (transaction_date purpose : string) (amount : Q)
    (now : string) (s : SessionState) : Transaction :=
  {| serial := serial_counter s;
     date := transaction_date;
     purpose := purpose;
     amount := amount;
     created_at := now |}.

Definition add_transaction (transaction_date purpose : string) (amount : Q)
    (now : string) (s : SessionState) : SessionState :=
  if str_truthy purpose && Qgtb amount 0 then
    {| transactions :=
         transactions s ++ [new_transaction transaction_date purpose amount now s];
       serial_counter := serial_counter s + 1;
       message := Some ("success", "Transaction added successfully! 🎉") |}
  else
    {| transactions := transactions s;
       serial_counter := serial_counter s;
       message :=
         Some ("error", "Please fill all required fields with valid values") |}.

(** Delete button of a row, lines 263-270: the list comprehension keeps the
    transactions whose serial differs from the row's. *)
Definition delete_transaction (row_serial : Z) (s : SessionState) : SessionState :=
  {| transactions :=
       filter (fun t => negb (serial t =? row_serial)) (transactions s);
     serial_counter := serial_counter s;
     message := Some ("success", "Transaction deleted successfully") |}.

(** ** Summary statistics, lines 126-137

    The empty branch is the script's. The other branch is given with exact
    sums and the order of the date text; pandas computes it with floats and
    parsed dates. *)

Record Summary := mkSummary {
  total_amount : Q;
  total_transactions : nat;
  avg_amount : Q;
  last_transaction_date : string
}.

(** [df['amount'].sum()]: the amounts added up in row order. *)
Definition sum_amounts (l : list Q) : Q := fold_left Qplus l 0%Q.

(** [df['date'].max()] on a frame whose first row has date [d]. *)
Definition max_date (d : string) (ds : list string) : string :=
  fold_left (fun m x => if (m <? x)%string then x else m) ds d.

Definition summary (s : SessionState) : Summary :=
  match transactions s with
  | [] =>
      {| total_amount := 0%Q; total_transactions := 0%nat;
         avg_amount := 0%Q; last_transaction_date := "N/A" |}
  | t :: ts =>
      let total := sum_amounts (map amount (t :: ts)) in
      {| total_amount := total;
         total_transactions := List.length (t :: ts);
         avg_amount := (total / inject_Z (Z.of_nat (List.length (t :: ts))))%Q;
         last_transaction_date := max_date (date t) (map date ts) |}
  end.

(** ** Data frames, lines 246-248, 282-283 and 297-299 *)

(** A stable descending sort: rows with equal keys keep their order.
    [gtb x y] is "the key of [x] is greater than the key of [y]". It is the
    sort of the specification's wording ("stable") and one of the sorts
    pandas may be; the script's own sort is [sort_by_amount] below. *)
Section SortValues.
Context {A : Type} (gtb : A -> A -> bool).



End SortValues.



















(** ** Sessions: sequences of handler runs *)

Inductive Op :=
| OpAdd (transaction_date purpose : string) (amount : Q) (now : string)
| OpDelete (row_serial : Z)
| OpImport (uploaded_file : Uploaded)
| OpClear
| OpExport (now today : string)
| OpDisplay.

Definition step (o : Op) (s : SessionState) : SessionState :=
  match o with
  | OpAdd d p a now => add_transaction d p a now s
  | OpDelete n => delete_transaction n s
  | OpImport f => import_state (import_data f s)
  | OpClear => clear_data s
  | OpExport _ _ => s
  | OpDisplay => display_message s
  end.

Definition run (ops : list Op) (s : SessionState) : SessionState :=
  fold_left (fun s o => step o s) ops s.

Definition reachable (s : SessionState) : Prop :=
  exists ops, run ops initial_state = s.

(** Serials handed out by the add handler along a session. *)
Definition added_by (o : Op) (s : SessionState) : list Z :=
  match o with
  | OpAdd _ p a _ =>
      if str_truthy p && Qgtb a 0 then [serial_counter s] else []
  | _ => []
  end.

Fixpoint added_serials (ops : list Op) (s : SessionState) : list Z :=
  match ops with
  | [] => []
  | o :: ops' => added_by o s ++ added_serials ops' (step o s)
  end.

(** Sessions that only add, delete, export and display. *)
Definition local_op (o : Op) : bool :=
  match o with
  | OpImport _ | OpClear => false
  | _ => true
  end.

(** The ledger part of the state. *)
Definition ledger (s : SessionState) : list Transaction * Z :=
  (transactions s, serial_counter s).

Definition serials (s : SessionState) : list Z := map serial (transactions s).

(** What add and delete maintain: stored serials are pairwise distinct and
    all below the counter. *)
Definition serials_below (s : SessionState) : Prop :=
  NoDup (serials s) /\ Forall (fun n => n < serial_counter s) (serials s).

(** ** Wording of the specification, for comparison with the handlers *)


(** Whitespace of [str.strip]: space, tab, line feed, vertical tab, form
    feed, carriage return. *)
Definition is_space (c : Ascii.ascii) : bool :=
  let n := Ascii.N_of_ascii c in
  (n =? 32)%N || ((9 <=? n)%N && (n <=? 13)%N).

(** The purpose is empty after trimming. *)
Fixpoint blank (s : string) : bool :=
  match s with
  | EmptyString => true
  | String c s' => is_space c && blank s'
  end.



(** ** Sample data *)

Definition tx (n : Z) (d p : string) (a : Q) : Transaction :=
  {| serial := n; date := d; purpose := p; amount := a;
     created_at := "2024-03-01T10:00:00" |}.

Definition one_entry : SessionState :=
  {| transactions := [tx 1 "2024-01-05" "Kitchen Equipment" 50000];
     serial_counter := 2; message := None |}.

Definition twice_seven : list Transaction :=
  [tx 7 "2024-01-05" "Insurance" 1200; tx 7 "2024-01-06" "Legal Fees" 800].

Definition snapshot_of (txs : list Transaction) (c : Z) : Snapshot :=
  {| snap_transactions := Some txs; snap_serial_counter := Some c;
     snap_export_date := Some "2024-03-02T09:30:00" |}.

(** The ledger left by importing a backup whose counter equals the serial of
    its only transaction. *)
Definition counter_on_serial : SessionState :=
  import_state
    (import_data
       (Parsed (snapshot_of [tx 5 "2024-01-05" "Insurance" 1200] 5))
       initial_state).

(** The ledger left by importing [twice_seven] with counter 8. *)
Definition sevens : SessionState :=
  import_state (import_data (Parsed (snapshot_of twice_seven 8)) one_entry).

(** One add followed by the confirmed clear. *)
Definition add_then_clear : list Op :=
  [OpAdd "2024-01-05" "Insurance" 1200 "2024-01-05T08:00:00"; OpClear].



(** A parsed backup whose 'transactions' is the number 5. *)
Definition five_for_transactions : Json :=
  JDict [("transactions", JInt 5); ("serial_counter", JInt 9)].

(** ** The statements of the specification, as properties of the handlers *)


(** serialize yields a snapshot whose import restores the ledger [s],
    whatever the state [cur] it is imported into. *)
Definition round_trip_at (s : SessionState) : Prop :=
  forall (now today : string) (cur : SessionState),
    exists data file_name,
      export_data now today s = Download data file_name /\
      ledger (import_state (import_data (Parsed data) cur)) = ledger s.

(** What add does with a valid input, freshness of the serial included. *)
Definition add_appends_fresh_at (s : SessionState) : Prop :=
  forall (d p : string) (a : Q) (now : string),
    p <> "" -> (0 < a)%Q ->
    transactions (add_transaction d p a now s)
      = (transactions s ++ [new_transaction d p a now s])%list /\
    serial (new_transaction d p a now s) = serial_counter s /\
    serial_counter (add_transaction d p a now s) = serial_counter s + 1 /\
    ~ In (serial (new_transaction d p a now s)) (serials s).

(** add fails on a non-positive amount or a purpose that trims to nothing. *)
Definition add_rejects_blank_at (s : SessionState) : Prop :=
  forall (d p : string) (a : Q) (now : string),
    (a <= 0)%Q \/ blank p = true ->
    ledger (add_transaction d p a now s) = ledger s /\
    exists text, message (add_transaction d p a now s) = Some ("error", text).

(** delete of a present serial removes exactly one record. *)
Definition delete_removes_one_at (s : SessionState) (n : Z) : Prop :=
  In n (serials s) ->
  S (List.length (transactions (delete_transaction n s)))
  = List.length (transactions s).


(** Serials are unique and the counter is above every serial handed out. *)
Definition session_invariant (ops : list Op) : Prop :=
  NoDup (serials (run ops initial_state)) /\
  Forall (fun n => n < serial_counter (run ops initial_state))
    (added_serials ops initial_state).

(** ** The rest of the script *)

(** The catalog of the purpose selectbox, lines 186-200. *)
Definition purpose_options : list string :=
  ["Kitchen Equipment"; "Furniture & Fixtures"; "Interior Design";
   "Licensing & Permits"; "Rent & Deposit"; "Staff Recruitment";
   "Marketing & Advertising"; "Initial Inventory"; "Utilities Setup";
   "Insurance"; "Legal Fees"; "Technology & POS"; "Miscellaneous"].

(** Sessions without an import (clear allowed). *)
Definition no_import_op (o : Op) : bool :=
  match o with
  | OpImport _ => false
  | _ => true
  end.

(** Sessions that never remove a record: no delete, no import, no clear. *)
Definition keeping_op (o : Op) : bool :=
  match o with
  | OpDelete _ | OpImport _ | OpClear => false
  | _ => true
  end.

(** What the form lets through: a true purpose and a positive amount. *)
Definition accepted (t : Transaction) : Prop :=
  purpose t <> "" /\ (0 < amount t)%Q.

(** [n], [n+1], ..., [n+k-1]. *)
Fixpoint count_from (n : Z) (k : nat) : list Z :=
  match k with
  | O => []
  | S k' => n :: count_from (n + 1) k'
  end.

(** The snapshot of a ledger with the 'serial_counter' key left out. *)
Definition snapshot_without_counter (s : SessionState) : Snapshot :=
  {| snap_transactions := Some (transactions s);
     snap_serial_counter := None;
     snap_export_date := None |}.

(** ** Facts about the Python primitives *)

Lemma str_truthy_true (s : string) : str_truthy s = true <-> s <> "".
Proof.
  destruct s; simpl; split; intro H; congruence.
Qed.

Lemma Qgtb_true (a b : Q) : Qgtb a b = true <-> (b < a)%Q.
Proof.
  unfold Qgtb. rewrite negb_true_iff.
  split; intro H.
  - apply Qnot_le_lt. intro Hle. apply Qle_bool_iff in Hle. congruence.
  - destruct (Qle_bool a b) eqn:E; [|reflexivity].
    apply Qle_bool_iff in E. exfalso. exact (Qlt_not_le _ _ H E).
Qed.

Lemma Qgtb_false (a b : Q) : Qgtb a b = false <-> (a <= b)%Q.
Proof.
  unfold Qgtb. rewrite negb_false_iff. apply Qle_bool_iff.
Qed.

Lemma add_accepts (d p : string) (a : Q) (now : string) (s : SessionState) :
  p <> "" -> (0 < a)%Q ->
  add_transaction d p a now s =
    {| transactions := (transactions s ++ [new_transaction d p a now s])%list;
       serial_counter := serial_counter s + 1;
       message := Some ("success", "Transaction added successfully! 🎉") |}.
Proof.
  intros Hp Ha. unfold add_transaction.
  apply str_truthy_true in Hp. apply Qgtb_true in Ha.
  now rewrite Hp, Ha.
Qed.

Lemma add_rejects (d p : string) (a : Q) (now : string) (s : SessionState) :
  p = "" \/ (a <= 0)%Q ->
  add_transaction d p a now s =
    {| transactions := transactions s;
       serial_counter := serial_counter s;
       message :=
         Some ("error", "Please fill all required fields with valid values") |}.
Proof.
  intros [-> | Ha]; unfold add_transaction.
  - reflexivity.
  - apply Qgtb_false in Ha. rewrite Ha. now rewrite andb_false_r.
Qed.

(** ** Import *)





(** C9: a parsed snapshot without the 'transactions' key leaves
    transactions, counter and message as they were, and the handler reports
    nothing: no error is shown and no rerun is requested. *)
Theorem import_without_transactions_is_noop :
  forall (s : SessionState) (data : Snapshot),
    snap_transactions data = None ->
    import_data (Parsed data) s = ImportFallThrough s.
Proof.
  intros s data Hkey. unfold import_data. now rewrite Hkey.
Qed.

Lemma import_without_transactions_is_noop_witness :
  import_data
    (Parsed {| snap_transactions := None; snap_serial_counter := Some 9;
               snap_export_date := None |})
    one_entry
  = ImportFallThrough one_entry.
Proof.
  apply (import_without_transactions_is_noop one_entry). reflexivity.
Defined.

(** ** Export *)

(** C10: the export handler hands out a snapshot exactly when the ledger
    holds a transaction; on the empty ledger it only warns. A snapshot that
    is handed out carries the ledger's transactions, so its list is never
    empty. *)
Theorem export_only_when_nonempty :
  forall (now today : string) (s : SessionState),
    match export_data now today s with
    | Download data _ =>
        transactions s <> [] /\
        snap_transactions data = Some (transactions s) /\
        snap_transactions data <> Some []
    | ExportWarning text =>
        transactions s = [] /\ text = "No data to export"
    end.
Proof.
  intros now today s. unfold export_data.
  destruct (transactions s) as [|t ts]; simpl.
  - now split.
  - repeat split; discriminate.
Qed.

(** C2, for the ledgers that can be exported: when the ledger holds at
    least one transaction, serialize yields a snapshot, and importing it,
    into any state, succeeds and restores the transactions and the counter
    exactly. *)
Theorem round_trip_nonempty :
  forall s : SessionState, transactions s <> [] -> round_trip_at s.
Proof.
  intros s Hne now today cur. unfold export_data.
  destruct (transactions s) as [|t ts] eqn:E; [congruence|].
  do 2 eexists. split; [reflexivity|].
  unfold ledger. cbn. now rewrite E.
Qed.

Lemma round_trip_nonempty_witness : round_trip_at one_entry.
Proof.
  apply round_trip_nonempty. simpl. discriminate.
Defined.

(** C2 fails on the empty ledger, which is reachable: the export handler
    produces no snapshot there, so nothing can restore it. *)
Lemma round_trip_fails_when_empty :
  reachable initial_state /\
  export_data "2024-03-02T09:30:00" "2024-03-02" initial_state
    = ExportWarning "No data to export" /\
  ~ round_trip_at initial_state.
Proof.
  split; [now exists []|]. split; [reflexivity|].
  intro H.
  destruct (H "2024-03-02T09:30:00" "2024-03-02" initial_state)
    as (data & fname & Hexp & _).
  discriminate Hexp.
Qed.

(** ** Add *)

(** C3, under the bound that add itself maintains: for every ledger whose
    stored serials are all below the counter and every input with a
    non-empty purpose and a positive amount, add appends exactly one
    transaction, with the counter as its serial, after the stored ones,
    raises the counter by one, and the new serial is not among the stored
    ones. The first three facts need no bound. *)
Theorem add_appends_fresh :
  forall s : SessionState,
    Forall (fun t => serial t < serial_counter s) (transactions s) ->
    add_appends_fresh_at s.
Proof.
  intros s Hbound d p a now Hp Ha.
  rewrite (add_accepts d p a now s Hp Ha). cbn.
  repeat split.
  unfold serials. rewrite in_map_iff. intros (t & Hser & Hin).
  rewrite Forall_forall in Hbound. specialize (Hbound t Hin). lia.
Qed.

Lemma add_appends_fresh_witness : add_appends_fresh_at one_entry.
Proof.
  apply add_appends_fresh. repeat constructor.
Defined.

(** C3 fails on a ledger that an import has left with its counter on a
    stored serial: the transaction that add appends repeats serial 5. *)
Lemma add_repeats_serial :
  reachable counter_on_serial /\
  serials (add_transaction "2024-02-01" "Rent & Deposit" 30000
             "2024-02-01T08:00:00" counter_on_serial) = [5; 5] /\
  ~ add_appends_fresh_at counter_on_serial.
Proof.
  split.
  - exists [OpImport (Parsed (snapshot_of [tx 5 "2024-01-05" "Insurance" 1200] 5))].
    reflexivity.
  - split; [reflexivity|].
    intro H.
    destruct (H "2024-02-01" "Rent & Deposit" 30000%Q "2024-02-01T08:00:00")
      as (_ & _ & _ & Hfresh).
    + discriminate.
    + reflexivity.
    + apply Hfresh. now left.
Qed.

(** C4, with the test the handler makes: when the amount is at most zero or
    the purpose is the empty string (nothing is trimmed), add leaves the
    transactions and the counter as they are and records the error
    message. *)
Theorem add_invalid_keeps_ledger :
  forall (s : SessionState) (d p : string) (a : Q) (now : string),
    (a <= 0)%Q \/ p = "" ->
    ledger (add_transaction d p a now s) = ledger s /\
    message (add_transaction d p a now s)
      = Some ("error", "Please fill all required fields with valid values").
Proof.
  intros s d p a now H.
  rewrite (add_rejects d p a now s); [now split | tauto].
Qed.

Lemma add_invalid_keeps_ledger_witness :
  ledger (add_transaction "2024-02-01" "" 30000 "2024-02-01T08:00:00" one_entry)
    = ledger one_entry /\
  ledger (add_transaction "2024-02-01" "Insurance" 0 "2024-02-01T08:00:00" one_entry)
    = ledger one_entry.
Proof.
  split.
  - apply (add_invalid_keeps_ledger one_entry). now right.
  - apply (add_invalid_keeps_ledger one_entry). left. discriminate.
Defined.

(** C4 fails on a purpose of blanks: nothing trims it, a single space is a
    true string, and the transaction is stored. *)
Lemma add_accepts_blank_purpose :
  blank " " = true /\
  ledger (add_transaction "2024-02-01" " " 30000 "2024-02-01T08:00:00" one_entry)
    = ((transactions one_entry
         ++ [mkTransaction 2 "2024-02-01" " " 30000 "2024-02-01T08:00:00"])%list,
       3) /\
  ~ add_rejects_blank_at one_entry.
Proof.
  split; [reflexivity|]. split; [reflexivity|].
  intro H.
  destruct (H "2024-02-01" " " 30000%Q "2024-02-01T08:00:00") as [Hsame _].
  - now right.
  - discriminate Hsame.
Qed.

(** ** Delete *)

Lemma filter_other_length (n : Z) (l : list Transaction) :
  List.length l
  = (List.length (filter (fun t => negb (serial t =? n)%Z) l)
     + count_occ Z.eq_dec (map serial l) n)%nat.
Proof.
  induction l as [|t l IH]; simpl; [reflexivity|].
  destruct (Z.eq_dec (serial t) n) as [E|E].
  - apply Z.eqb_eq in E. rewrite E. simpl. lia.
  - apply Z.eqb_neq in E. rewrite E. simpl. lia.
Qed.

Lemma filter_other_absent (n : Z) (l : list Transaction) :
  ~ In n (map serial (filter (fun t => negb (serial t =? n)) l)).
Proof.
  rewrite in_map_iff. intros (t & Hser & Hin).
  apply filter_In in Hin. destruct Hin as [_ Hne].
  apply negb_true_iff, Z.eqb_neq in Hne. contradiction.
Qed.

Lemma filter_other_idem (n : Z) (l : list Transaction) :
  filter (fun t => negb (serial t =? n))
    (filter (fun t => negb (serial t =? n)) l)
  = filter (fun t => negb (serial t =? n)) l.
Proof.
  induction l as [|t l IH]; simpl; [reflexivity|].
  destruct (negb (serial t =? n)) eqn:E; simpl; [rewrite E|]; congruence.
Qed.

(** C5, as the comprehension behaves: delete removes every record that
    carries the serial and keeps the others in their order, so it removes
    exactly one record when the serial is stored once (in particular when
    serials are unique); a second delete of the same serial changes nothing
    further; no delete changes the counter. The handler has no result: it
    records the same success message on both calls. *)
Theorem delete_removes_serial :
  forall (s : SessionState) (n : Z),
    let s1 := delete_transaction n s in
    transactions s1 = filter (fun t => negb (serial t =? n)) (transactions s) /\
    ~ In n (serials s1) /\
    List.length (transactions s)
      = (List.length (transactions s1) + count_occ Z.eq_dec (serials s) n)%nat /\
    (NoDup (serials s) -> delete_removes_one_at s n) /\
    delete_transaction n s1 = s1 /\
    serial_counter s1 = serial_counter s /\
    message s1 = Some ("success", "Transaction deleted successfully").
Proof.
  intros s n s1. subst s1. unfold serials. cbn.
  split; [reflexivity|]. split; [apply filter_other_absent|].
  split; [apply filter_other_length|]. split.
  - intros Hnd Hin. cbn.
    rewrite (filter_other_length n (transactions s)).
    apply (NoDup_count_occ' Z.eq_dec) in Hin; [|exact Hnd].
    unfold serials in Hin. rewrite Hin. lia.
  - split; [|now split].
    unfold delete_transaction. cbn. now rewrite filter_other_idem.
Qed.

Lemma delete_removes_serial_witness :
  delete_removes_one_at one_entry 1 /\
  delete_transaction 1 (delete_transaction 1 one_entry)
    = delete_transaction 1 one_entry.
Proof.
  destruct (delete_removes_serial one_entry 1) as (_ & _ & _ & Hone & Hidem & _).
  split; [|exact Hidem].
  apply Hone. repeat constructor. simpl. tauto.
Defined.

(** C5 fails on a ledger holding serial 7 twice: one delete removes both
    records. *)
Lemma delete_removes_both_sevens :
  reachable sevens /\
  List.length (transactions sevens) = 2%nat /\
  transactions (delete_transaction 7 sevens) = [] /\
  ~ delete_removes_one_at sevens 7.
Proof.
  split.
  - exists [OpAdd "2024-01-05" "Kitchen Equipment" 50000 "2024-03-01T10:00:00";
            OpDisplay; OpImport (Parsed (snapshot_of twice_seven 8))].
    reflexivity.
  - split; [reflexivity|]. split; [reflexivity|].
    intro H. assert (Hin : In 7 (serials sevens)) by (now left).
    specialize (H Hin). discriminate H.
Qed.

(** ** Summary *)

(** C8: on a ledger without transactions, whatever its counter and message,
    the summary is total 0, count 0, average 0 (nothing is divided) and
    "N/A" for the last date. *)
Theorem summary_of_empty :
  forall (c : Z) (m : option (string * string)),
    summary {| transactions := []; serial_counter := c; message := m |}
    = {| total_amount := 0%Q; total_transactions := 0%nat;
         avg_amount := 0%Q; last_transaction_date := "N/A" |}.
Proof.
  intros c m. reflexivity.
Qed.

(** ** Sessions *)

Section SerialInvariant.

Lemma serials_below_initial : serials_below initial_state.
Proof. split; constructor. Qed.

Lemma serials_filter (f : Transaction -> bool) (l : list Transaction) :
  NoDup (map serial l) -> NoDup (map serial (filter f l)).
Proof.
  induction l as [|t l IH]; simpl; intro H; [constructor|].
  inversion H as [|x xs Hnotin Hnd]; subst.
  destruct (f t); simpl; [constructor|]; auto.
  rewrite in_map_iff in *. intros (u & Hu & Hin).
  apply Hnotin. exists u. split; [exact Hu|].
  now apply filter_In in Hin.
Qed.

Lemma serials_below_add (d p : string) (a : Q) (now : string) (s : SessionState) :
  serials_below s -> serials_below (add_transaction d p a now s).
Proof.
  intros [Hnd Hlt]. unfold add_transaction.
  destruct (str_truthy p && Qgtb a 0); unfold serials_below, serials in *; cbn.
  - rewrite map_app. cbn. split.
    + apply NoDup_app; [exact Hnd | repeat constructor; simpl; tauto |].
      intros n Hin [<-|[]].
      rewrite Forall_forall in Hlt. specialize (Hlt _ Hin). lia.
    + apply Forall_app. split.
      * eapply Forall_impl; [|exact Hlt]. simpl. intros; lia.
      * repeat constructor. lia.
  - now split.
Qed.

Lemma serials_below_delete (n : Z) (s : SessionState) :
  serials_below s -> serials_below (delete_transaction n s).
Proof.
  intros [Hnd Hlt]. unfold serials_below, serials in *. cbn. split.
  - now apply serials_filter.
  - rewrite Forall_forall in *. intros x Hx. apply Hlt.
    rewrite in_map_iff in *. destruct Hx as (t & Ht & Hin).
    exists t. split; [exact Ht|]. now apply filter_In in Hin.
Qed.

Lemma step_local (o : Op) (s : SessionState) :
  local_op o = true -> serials_below s ->
  serials_below (step o s) /\
  serial_counter s <= serial_counter (step o s) /\
  Forall (fun n => n < serial_counter (step o s)) (added_by o s).
Proof.
  intros Hlocal Hinv.
  destruct o as [d p a now | n | f | | now today | ]; try discriminate; cbn.
  - split; [now apply serials_below_add|].
    unfold add_transaction.
    destruct (str_truthy p && Qgtb a 0); cbn.
    + split; [lia|]. constructor; [lia | constructor].
    + split; [lia | constructor].
  - split; [now apply serials_below_delete|]. split; [lia|constructor].
  - split; [exact Hinv|]. split; [lia|constructor].
  - split; [|split; [|constructor]];
      unfold display_message; destruct (message s); cbn; try lia; exact Hinv.
Qed.

Lemma run_local (ops : list Op) :
  forall s : SessionState,
    forallb local_op ops = true -> serials_below s ->
    serials_below (run ops s) /\
    serial_counter s <= serial_counter (run ops s) /\
    Forall (fun n => n < serial_counter (run ops s)) (added_serials ops s).
Proof.
  induction ops as [|o ops IH]; intros s Hlocal Hinv.
  - split; [exact Hinv|]. split; [cbn; lia|constructor].
  - change (run (o :: ops) s) with (run ops (step o s)).
    cbn [added_serials]. cbn in Hlocal. apply andb_true_iff in Hlocal. destruct Hlocal as [Ho Hops].
    destruct (step_local o s Ho Hinv) as (Hinv' & Hle & Hadded).
    destruct (IH (step o s) Hops Hinv') as (Hfin & Hle' & Hrest).
    split; [exact Hfin|]. split; [lia|].
    apply Forall_app. split; [|exact Hrest].
    eapply Forall_impl; [|exact Hadded]. simpl. intros; lia.
Qed.

End SerialInvariant.

(** C7, for the sessions the handlers keep in order: after every sequence
    of add, delete, export and message display from the empty ledger,
    whatever the inputs, the stored serials are pairwise distinct and the
    counter is above every serial add has handed out in the session (and
    above every stored serial). Sessions with an import or a clear are left
    out: the import installs the supplied counter and transactions as they
    come, and clear sets the counter back to 1. *)
Theorem local_session_invariant :
  forall ops : list Op,
    forallb local_op ops = true ->
    session_invariant ops /\ serials_below (run ops initial_state).
Proof.
  intros ops Hlocal.
  destruct (run_local ops initial_state Hlocal serials_below_initial)
    as (Hinv & _ & Hadded).
  split; [|exact Hinv]. split; [apply Hinv | exact Hadded].
Qed.

Lemma local_session_invariant_witness :
  session_invariant
    [OpAdd "2024-01-05" "Kitchen Equipment" 50000 "2024-01-05T08:00:00";
     OpAdd "2024-01-20" "" 15000 "2024-01-20T08:00:00";
     OpDelete 1;
     OpAdd "2024-02-01" "Rent & Deposit" 30000 "2024-02-01T08:00:00"].
Proof.
  apply local_session_invariant. reflexivity.
Defined.

(** C7 fails with an import and with a clear: after importing a backup that
    holds serial 7 twice the stored serials are not unique; after one add
    and a clear the counter is 1 again, the serial that was handed out. *)
Lemma session_invariant_broken :
  serials (run [OpImport (Parsed (snapshot_of twice_seven 8))] initial_state)
    = [7; 7] /\
  ~ session_invariant [OpImport (Parsed (snapshot_of twice_seven 8))] /\
  added_serials add_then_clear initial_state = [1] /\
  serial_counter (run add_then_clear initial_state) = 1 /\
  ~ session_invariant add_then_clear.
Proof.
  split; [reflexivity|]. split.
  - intros [Hnd _]. cbn in Hnd.
    inversion Hnd as [|x l Hin _]; subst. apply Hin. now left.
  - split; [reflexivity|]. split; [reflexivity|].
    intros [_ Hlt]. cbn in Hlt.
    inversion Hlt as [|x l Hx _]; subst. lia.
Qed.

(** ** Sorting a frame *)

Section StableSort.
Context {A : Type} (gtb : A -> A -> bool) (before : A -> A -> Prop).

Hypothesis gtb_asym : forall a b, gtb a b = true -> gtb b a = false.
Hypothesis gtb_negtrans :
  forall a b c, gtb a b = false -> gtb b c = false -> gtb a c = false.





End StableSort.

(** ** Order of purposes *)





(** ** Keys of a grouped frame *)











(** ** Purpose summary *)











(** ** Sessions without an import *)

Lemma step_no_import (o : Op) (s : SessionState) :
  no_import_op o = true -> serials_below s -> serials_below (step o s).
Proof.
  intros Ho Hinv. destruct (local_op o) eqn:Hlocal.
  - now apply step_local.
  - destruct o; try discriminate. cbn. split; constructor.
Qed.

(** X1: without an import, and whatever is added, deleted or cleared, the
    stored serials stay pairwise distinct and below the counter: a clear
    empties the ledger together with the counter reset. *)
Theorem no_import_serials_below :
  forall ops : list Op,
    forallb no_import_op ops = true -> serials_below (run ops initial_state).
Proof.
  intro ops. unfold run.
  generalize serials_below_initial. generalize initial_state.
  induction ops as [|o ops IH]; intros s Hinv Hops; [exact Hinv|].
  cbn in Hops. apply andb_true_iff in Hops. destruct Hops as [Ho Hops].
  cbn [fold_left]. apply IH; [|exact Hops]. now apply step_no_import.
Qed.

Lemma no_import_serials_below_witness :
  serials_below
    (run [OpAdd "2024-01-05" "Insurance" 1200 "2024-01-05T08:00:00";
          OpAdd "2024-01-06" "Legal Fees" 800 "2024-01-06T08:00:00";
          OpClear;
          OpAdd "2024-01-07" "Insurance" 300 "2024-01-07T08:00:00";
          OpDelete 3]
       initial_state).
Proof.
  apply no_import_serials_below. reflexivity.
Defined.

Lemma accepted_filter (f : Transaction -> bool) (l : list Transaction) :
  Forall accepted l -> Forall accepted (filter f l).
Proof.
  rewrite !Forall_forall. intros H t Hin.
  apply filter_In in Hin. now apply H.
Qed.

Lemma step_accepted (o : Op) (s : SessionState) :
  no_import_op o = true ->
  Forall accepted (transactions s) -> Forall accepted (transactions (step o s)).
Proof.
  intros Ho Hacc.
  destruct o as [d p a now | n | f | | now today | ]; try discriminate; cbn.
  - unfold add_transaction.
    destruct (str_truthy p && Qgtb a 0) eqn:E; cbn; [|exact Hacc].
    apply andb_true_iff in E. destruct E as [Hp Ha].
    apply Forall_app. split; [exact Hacc|].
    constructor; [|constructor]. split; cbn.
    + now apply str_truthy_true.
    + now apply Qgtb_true.
  - now apply accepted_filter.
  - constructor.
  - exact Hacc.
  - unfold display_message. now destruct (message s).
Qed.

(** X2: without an import, every stored transaction has a non-empty purpose and
    a positive amount: the form is the only way in, and it checks both. *)
Theorem no_import_all_accepted :
  forall ops : list Op,
    forallb no_import_op ops = true ->
    Forall accepted (transactions (run ops initial_state)).
Proof.
  intro ops. unfold run.
  assert (H0 : Forall accepted (transactions initial_state)) by constructor.
  revert H0. generalize initial_state.
  induction ops as [|o ops IH]; intros s Hacc Hops; [exact Hacc|].
  cbn in Hops. apply andb_true_iff in Hops. destruct Hops as [Ho Hops].
  cbn [fold_left]. apply IH; [|exact Hops]. now apply step_accepted.
Qed.

Lemma no_import_all_accepted_witness :
  Forall accepted
    (transactions
       (run [OpAdd "2024-01-05" "Insurance" 1200 "2024-01-05T08:00:00";
             OpAdd "2024-01-06" "" 800 "2024-01-06T08:00:00";
             OpAdd "2024-01-07" "Legal Fees" 0 "2024-01-07T08:00:00";
             OpClear;
             OpAdd "2024-01-08" " " 300 "2024-01-08T08:00:00"]
          initial_state)).
Proof.
  apply no_import_all_accepted. reflexivity.
Defined.

(** ** Serials handed out *)

Lemma step_counter (o : Op) (s : SessionState) :
  local_op o = true ->
  (added_by o s = [] /\ serial_counter (step o s) = serial_counter s)
  \/ (added_by o s = [serial_counter s]
      /\ serial_counter (step o s) = serial_counter s + 1).
Proof.
  intro Ho.
  destruct o as [d p a now | n | f | | now today | ]; try discriminate; cbn;
    try (left; split; reflexivity).
  - unfold add_transaction. destruct (str_truthy p && Qgtb a 0); cbn;
      [right | left]; split; reflexivity.
  - left. split; [reflexivity|].
    unfold display_message. now destruct (message s).
Qed.

Lemma count_from_snoc (n : nat) :
  forall a : Z, count_from a (S n) = (count_from a n ++ [a + Z.of_nat n])%list.
Proof.
  induction n as [|n IH]; intro a.
  - cbn. f_equal. lia.
  - change (count_from a (S (S n))) with (a :: count_from (a + 1) (S n)).
    rewrite (IH (a + 1)). cbn [count_from app]. do 3 f_equal. lia.
Qed.

Lemma step_consecutive (o : Op) (s : SessionState) :
  keeping_op o = true ->
  serials s = count_from 1 (List.length (transactions s)) /\
  serial_counter s = 1 + Z.of_nat (List.length (transactions s)) ->
  serials (step o s) = count_from 1 (List.length (transactions (step o s))) /\
  serial_counter (step o s) = 1 + Z.of_nat (List.length (transactions (step o s))).
Proof.
  intros Ho [Hser Hcnt].
  destruct o as [d p a now | n | f | | now today | ]; try discriminate;
    unfold serials in *; cbn -[Z.add Z.of_nat count_from].
  - unfold add_transaction.
    destruct (str_truthy p && Qgtb a 0); cbn -[Z.add Z.of_nat count_from];
      [|now split].
    rewrite map_app, length_app, Nat.add_1_r, count_from_snoc, Hser.
    cbn -[Z.add Z.of_nat count_from].
    split; [now rewrite Hcnt | lia].
  - now split.
  - unfold display_message. destruct (message s); cbn; now split.
Qed.

(** X3: in a session from the empty ledger in which nothing is deleted,
    imported or cleared, the stored transactions carry the serials 1, 2,
    3, ... in the order they were added, without a gap, and the counter is
    one more than their number: a rejected add consumes no serial. *)
Theorem stored_serials_consecutive :
  forall ops : list Op,
    forallb keeping_op ops = true ->
    serials (run ops initial_state)
      = count_from 1 (List.length (transactions (run ops initial_state))) /\
    serial_counter (run ops initial_state)
      = 1 + Z.of_nat (List.length (transactions (run ops initial_state))).
Proof.
  intro ops. unfold run.
  assert (H0 : serials initial_state
               = count_from 1 (List.length (transactions initial_state)) /\
               serial_counter initial_state
               = 1 + Z.of_nat (List.length (transactions initial_state)))
    by (split; reflexivity).
  revert H0. generalize initial_state.
  induction ops as [|o ops IH]; intros s Hs Hops; [exact Hs|].
  cbn in Hops. apply andb_true_iff in Hops. destruct Hops as [Ho Hops].
  cbn [fold_left]. apply IH; [|exact Hops]. now apply step_consecutive.
Qed.

Lemma stored_serials_consecutive_witness :
  serials
    (run [OpAdd "2024-01-05" "Insurance" 1200 "2024-01-05T08:00:00";
          OpAdd "2024-01-06" "" 800 "2024-01-06T08:00:00";
          OpDisplay;
          OpAdd "2024-01-07" "Legal Fees" 50 "2024-01-07T08:00:00"]
       initial_state)
  = [1; 2].
Proof.
  refine (proj1 (stored_serials_consecutive _ _)). reflexivity.
Defined.

Lemma step_origin (o : Op) (s : SessionState) (n : Z) :
  local_op o = true -> In n (serials (step o s)) ->
  In n (serials s) \/ serial_counter s <= n.
Proof.
  intros Ho.
  destruct o as [d p a now | k | f | | now today | ]; try discriminate;
    unfold serials; cbn.
  - unfold add_transaction. destruct (str_truthy p && Qgtb a 0); cbn; [|tauto].
    rewrite map_app, in_app_iff. cbn. intros [H | [<- | []]]; [now left | right; lia].
  - rewrite !in_map_iff. intros (t & Ht & Hin). left.
    exists t. split; [exact Ht|]. now apply filter_In in Hin.
  - tauto.
  - unfold display_message. destruct (message s); cbn; tauto.
Qed.

Lemma run_origin (ops : list Op) :
  forall (s : SessionState) (n : Z),
    forallb local_op ops = true -> In n (serials (run ops s)) ->
    In n (serials s) \/ serial_counter s <= n.
Proof.
  induction ops as [|o ops IH]; intros s n Hops Hin; [now left|].
  cbn in Hops. apply andb_true_iff in Hops. destruct Hops as [Ho Hops].
  change (run (o :: ops) s) with (run ops (step o s)) in Hin.
  destruct (IH _ _ Hops Hin) as [H | H].
  - exact (step_origin o s n Ho H).
  - right. destruct (step_counter o s Ho) as [[_ Hc] | [_ Hc]]; lia.
Qed.

(** X4: a serial below the counter that is not stored, because it was deleted,
    is never stored again by any sequence of adds, deletes, exports and
    displays, from any state: serials are not reused. *)
Theorem deleted_serial_not_reused :
  forall (s : SessionState) (n : Z) (ops : list Op),
    forallb local_op ops = true ->
    n < serial_counter s -> ~ In n (serials s) ->
    ~ In n (serials (run ops s)).
Proof.
  intros s n ops Hops Hlt Hout Hin.
  destruct (run_origin ops s n Hops Hin) as [H | H]; [contradiction | lia].
Qed.

Lemma deleted_serial_not_reused_witness :
  ~ In 1 (serials
            (run [OpAdd "2024-01-07" "Legal Fees" 50 "2024-01-07T08:00:00";
                  OpAdd "2024-01-08" "Insurance" 70 "2024-01-08T08:00:00"]
               (delete_transaction 1 one_entry))).
Proof.
  apply deleted_serial_not_reused.
  - reflexivity.
  - cbn. lia.
  - cbn. tauto.
Defined.

(** ** Backups without a counter *)

Lemma step_keeping (o : Op) (s : SessionState) :
  keeping_op o = true ->
  serial_counter (step o s) - Z.of_nat (List.length (transactions (step o s)))
  = serial_counter s - Z.of_nat (List.length (transactions s)).
Proof.
  intro Ho.
  destruct o as [d p a now | n | f | | now today | ]; try discriminate; cbn.
  - unfold add_transaction. destruct (str_truthy p && Qgtb a 0); cbn; [|reflexivity].
    rewrite length_app. cbn. lia.
  - reflexivity.
  - unfold display_message. now destruct (message s).
Qed.

Lemma run_keeping (ops : list Op) :
  forall s : SessionState,
    forallb keeping_op ops = true ->
    serial_counter (run ops s) - Z.of_nat (List.length (transactions (run ops s)))
    = serial_counter s - Z.of_nat (List.length (transactions s)).
Proof.
  induction ops as [|o ops IH]; intros s Hops; [reflexivity|].
  cbn in Hops. apply andb_true_iff in Hops. destruct Hops as [Ho Hops].
  change (run (o :: ops) s) with (run ops (step o s)).
  now rewrite (IH _ Hops), (step_keeping o s Ho).
Qed.

(** X5: the fallback of the import, the number of transactions plus one, is the
    right counter for the backup of a session in which nothing was ever
    deleted or cleared: importing such a ledger's transactions without the
    'serial_counter' key, into any state, restores transactions and counter
    exactly. *)
Theorem fallback_restores_keeping_session :
  forall (ops : list Op) (cur : SessionState),
    forallb keeping_op ops = true ->
    ledger
      (import_state
         (import_data
            (Parsed (snapshot_without_counter (run ops initial_state))) cur))
    = ledger (run ops initial_state).
Proof.
  intros ops cur Hops.
  pose proof (run_keeping ops initial_state Hops) as H. cbn in H.
  unfold ledger. cbn. f_equal. lia.
Qed.

Lemma fallback_restores_keeping_session_witness :
  ledger
    (import_state
       (import_data
          (Parsed
             (snapshot_without_counter
                (run [OpAdd "2024-01-05" "Insurance" 1200 "2024-01-05T08:00:00";
                      OpDisplay;
                      OpAdd "2024-01-06" "Legal Fees" 800 "2024-01-06T08:00:00"]
                   initial_state)))
          one_entry))
  = ledger
      (run [OpAdd "2024-01-05" "Insurance" 1200 "2024-01-05T08:00:00";
            OpDisplay;
            OpAdd "2024-01-06" "Legal Fees" 800 "2024-01-06T08:00:00"]
         initial_state).
Proof.
  apply fallback_restores_keeping_session. reflexivity.
Defined.

(** ** Add and delete together *)

Lemma filter_other_all (n : Z) (l : list Transaction) :
  ~ In n (map serial l) ->
  filter (fun t => negb (serial t =? n)) l = l.
Proof.
  induction l as [|t l IH]; cbn; intro H; [reflexivity|].
  destruct (Z.eqb_spec (serial t) n) as [E | E]; cbn.
  - exfalso. apply H. now left.
  - f_equal. apply IH. intro Hin. apply H. now right.
Qed.

(** X6: deleting a serial that is not stored leaves the transactions as they
    are, in content and order, and the counter too; the handler still
    records its success message. *)
Theorem delete_absent_keeps_ledger :
  forall (s : SessionState) (n : Z),
    ~ In n (serials s) ->
    ledger (delete_transaction n s) = ledger s /\
    message (delete_transaction n s)
      = Some ("success", "Transaction deleted successfully").
Proof.
  intros s n Hout. unfold ledger. cbn.
  now rewrite (filter_other_all n (transactions s) Hout).
Qed.

Lemma delete_absent_keeps_ledger_witness :
  ledger (delete_transaction 4 one_entry) = ledger one_entry.
Proof.
  apply (delete_absent_keeps_ledger one_entry 4). cbn. lia.
Defined.

(** X7: deleting the transaction that a valid add has just stored gives back
    the transactions held before the add, when the stored serials were
    below the counter; the counter keeps the increment, so the serial is
    spent. *)
Theorem add_then_delete_restores :
  forall (s : SessionState) (d p : string) (a : Q) (now : string),
    Forall (fun t => serial t < serial_counter s) (transactions s) ->
    p <> "" -> (0 < a)%Q ->
    ledger (delete_transaction (serial_counter s) (add_transaction d p a now s))
    = (transactions s, serial_counter s + 1).
Proof.
  intros s d p a now Hbound Hp Ha.
  rewrite (add_accepts d p a now s Hp Ha). unfold ledger. cbn.
  rewrite filter_app. cbn. rewrite Z.eqb_refl. cbn. rewrite app_nil_r.
  f_equal. apply filter_other_all.
  rewrite in_map_iff. intros (t & Ht & Hin).
  rewrite Forall_forall in Hbound. specialize (Hbound t Hin). lia.
Qed.

Lemma add_then_delete_restores_witness :
  ledger
    (delete_transaction 2
       (add_transaction "2024-02-01" "Insurance" 30000 "2024-02-01T08:00:00"
          one_entry))
  = (transactions one_entry, 3).
Proof.
  apply (add_then_delete_restores one_entry).
  - repeat constructor.
  - discriminate.
  - reflexivity.
Defined.

(** X8: a purpose taken from the catalog of the form is never the reason of a
    rejection: with any positive amount the transaction is stored with that
    purpose and the current counter as its serial. *)
Theorem catalog_purpose_accepted :
  forall (p : string) (s : SessionState) (d : string) (a : Q) (now : string),
    In p purpose_options -> (0 < a)%Q ->
    transactions (add_transaction d p a now s)
    = (transactions s ++ [mkTransaction (serial_counter s) d p a now])%list.
Proof.
  intros p s d a now Hin Ha.
  assert (Hp : p <> "").
  { unfold purpose_options in Hin. cbn in Hin.
    repeat (destruct Hin as [<- | Hin]; [discriminate|]). destruct Hin. }
  now rewrite (add_accepts d p a now s Hp Ha).
Qed.

Lemma catalog_purpose_accepted_witness :
  transactions
    (add_transaction "2024-02-01" "Technology & POS" (1 # 100)
       "2024-02-01T08:00:00" one_entry)
  = (transactions one_entry
      ++ [mkTransaction 2 "2024-02-01" "Technology & POS" (1 # 100)
            "2024-02-01T08:00:00"])%list.
Proof.
  apply catalog_purpose_accepted.
  - cbn. tauto.
  - reflexivity.
Defined.

(** ** Monthly trend *)



(** ** An import that fails half way *)

(** X17: the import ends on the error of [len] exactly when the uploaded
    object has a 'transactions' that is a number, a boolean or null; line
    101 has then already stored that value in place of the transactions,
    while the counter and the message are kept: this failing import is not
    all-or-nothing. *)
Theorem import_without_length_overwrites :
  forall (s s' : RawSession) (u : RawUpload),
    import_block u s = RawError s' LenRaised
    <-> exists items v,
          u = RawParsed (JDict items) /\
          dict_get "transactions" items = Some v /\
          py_len v = None /\
          s' = {| raw_transactions := v;
                  raw_serial_counter := raw_serial_counter s;
                  raw_message := raw_message s |}.
Proof.
  intros s s' u. split.
  - intro H. destruct u as [| err | data]; cbn in H; try discriminate.
    destruct data as [| b | n | x | t | l | items]; cbn in H; try discriminate.
    + destruct (str_contains "transactions" t); discriminate.
    + destruct (list_has_str "transactions" l); discriminate.
    + destruct (dict_get "transactions" items) as [v|] eqn:Hget; [|discriminate].
      destruct (py_len v) eqn:Hlen; [discriminate|].
      exists items, v. inversion H. now repeat split.
  - intros (items & v & -> & Hget & Hlen & ->). cbn. now rewrite Hget, Hlen.
Qed.

Lemma import_without_length_overwrites_witness :
  import_block (RawParsed five_for_transactions) (raw_of_state one_entry)
  = RawError
      {| raw_transactions := JInt 5;
         raw_serial_counter := JInt 2;
         raw_message := None |}
      LenRaised.
Proof.
  apply (proj2 (import_without_length_overwrites (raw_of_state one_entry) _ _)).
  exists [("transactions", JInt 5); ("serial_counter", JInt 9)], (JInt 5).
  repeat split.
Defined.

